(** * scripts/youtube_utils.py: the Fetcher and the Tagger

    A shallow embedding of [download_youtube_audio] and
    [add_metadata_to_mp3].  Both functions are glue around three
    collaborators that live outside the repository:

    - [uuid.uuid4] and [os.path] from the Python standard library,
    - [yt_dlp.YoutubeDL], the extraction and transcoding service,
    - [mutagen], the ID3 tag editor.

    The two functions are written in a state-and-exception monad over a
    [World] (files on disk, lines printed, random identifiers drawn).
    [yt_dlp] is a black box: it is an interface whose every behaviour is
    allowed.  [os.path] and [mutagen] are modelled by what the calls used
    here do to a POSIX path and to the tag dictionary of a file. *)

From Stdlib Require Import Ascii String.
From stdpp Require Import gmap strings list.

Local Open Scope string_scope.

(** ** Python values, exceptions and the effect monad *)

Module Python.

(** The instances of Python's [Exception] class, which is what both
    handlers of the module ([except Exception as e]) match.  Signals that
    end the interpreter ([KeyboardInterrupt], [SystemExit]) derive from
    [BaseException] only and are outside the model. *)
Inductive Exception : Type :=
| FileNotFoundError (msg : string)
| KeyError (key : string)
| AttributeError (msg : string)
| DownloadError (msg : string)
| MutagenError (msg : string)
| OtherException (cls msg : string).

(** [str(e)], as the f-strings of the handlers format it; a [KeyError]
    prints the [repr] of the missing key. *)
Definition str (e : Exception) : string :=
  match e with
  | FileNotFoundError msg => msg
  | KeyError key => "'" +:+ key +:+ "'"
  | AttributeError msg => msg
  | DownloadError msg => msg
  | MutagenError msg => msg
  | OtherException _ msg => msg
  end.

Inductive Outcome (A : Type) : Type :=
| Return (a : A)
| Raise (e : Exception).
Arguments Return {A} a.
Arguments Raise {A} e.

End Python.
Export Python.

(** ** The tag dictionary of mutagen *)

Module Mutagen.

(** The four frame classes the Tagger builds, with the keyword arguments
    it passes. *)
Inductive Frame : Type :=
| TIT2 (encoding : Z) (text : string)
| TPE1 (encoding : Z) (text : string)
| TALB (encoding : Z) (text : string)
| COMM (encoding : Z) (lang desc text : string).

Global Instance Frame_eq_dec : EqDecision Frame.
Proof. solve_decision. Defined.

(** [Frame.HashKey]: the frame identifier for text frames, and
    [COMM:desc:lang] for comments. *)
Definition HashKey (f : Frame) : string :=
  match f with
  | TIT2 _ _ => "TIT2"
  | TPE1 _ _ => "TPE1"
  | TALB _ _ => "TALB"
  | COMM _ lang desc _ => "COMM:" +:+ desc +:+ ":" +:+ lang
  end.

(** [ID3] is a dictionary from hash keys to frames; [ID3.add] stores the
    frame under its hash key ([self[frame.HashKey] = frame]). *)
Abbreviation ID3 := (gmap string Frame).

Definition ID3_add (frame : Frame) (tags : ID3) : ID3 :=
  <[HashKey frame := frame]> tags.

(** The [MP3] object: the file it was opened from and its tags, [None]
    when the file carries no ID3 header. *)
Record MP3 : Type := { filename : string; tags : option ID3 }.

(** [audio.add_tags()] *)
Definition add_tags (audio : MP3) : MP3 :=
  {| filename := filename audio; tags := Some ∅ |}.

End Mutagen.
Export Mutagen.

(** ** The world *)

(** A file: whether its content is an MPEG audio stream mutagen can sync
    to, the ID3 tags it carries, and whether it may be written. *)
Record File : Type := { mpeg : bool; id3 : option ID3; writable : bool }.

Definition set_id3 (t : ID3) (f : File) : File :=
  {| mpeg := mpeg f; id3 := Some t; writable := writable f |}.

Record World : Type := {
  files : gmap string File;   (* the disk, by path *)
  stdout : list string;       (* the lines printed so far *)
  uuid_draws : nat            (* how many identifiers were drawn *)
}.

Definition set_files (fs : gmap string File) (w : World) : World :=
  {| files := fs; stdout := stdout w; uuid_draws := uuid_draws w |}.

Definition Py (A : Type) : Type := World → Outcome A * World.

Definition ret {A} (a : A) : Py A := λ w, (Return a, w).

Definition raise {A} (e : Exception) : Py A := λ w, (Raise e, w).

Definition bind {A B} (m : Py A) (k : A → Py B) : Py B :=
  λ w, match m w with
       | (Return a, w') => k a w'
       | (Raise e, w') => (Raise e, w')
       end.

(** [try: body except Exception as e: handler]; the handler runs in the
    world the body left behind. *)
Definition try_except {A} (body : Py A) (handler : Exception → Py A) : Py A :=
  λ w, match body w with
       | (Return a, w') => (Return a, w')
       | (Raise e, w') => handler e w'
       end.

Declare Scope py_scope.
Delimit Scope py_scope with py.
Notation "x <- m ;; k" := (bind m (λ x, k))
  (at level 100, m at next level, right associativity) : py_scope.
Notation "m ;; k" := (bind m (λ _, k))
  (at level 100, right associativity) : py_scope.
Local Open Scope py_scope.

(** [print(line)] *)
Definition print (line : string) : Py unit :=
  λ w, (Return tt,
        {| files := files w; stdout := stdout w ++ [line];
           uuid_draws := uuid_draws w |}).

(** [d[key]] on a dictionary with string keys. *)
Definition getitem (d : gmap string string) (key : string) : Py string :=
  match d !! key with
  | Some v => ret v
  | None => raise (KeyError key)
  end.

(** [d.get(key, dflt)] *)
Definition get (d : gmap string string) (key dflt : string) : string :=
  default dflt (d !! key).

(** ** os.path (posixpath) *)

Fixpoint endswith_sep (s : string) : bool :=
  match s with
  | EmptyString => false
  | String c EmptyString => bool_decide (c = "/"%char)
  | String _ s' => endswith_sep s'
  end.

Definition startswith_sep (s : string) : bool :=
  match s with
  | String c _ => bool_decide (c = "/"%char)
  | EmptyString => false
  end.

(** [os.path.join(a, b)] *)
Definition os_path_join (a b : string) : string :=
  if startswith_sep b then b
  else if bool_decide (a = "") || endswith_sep a then a +:+ b
  else a +:+ "/" +:+ b.

(** [os.path.exists(path)] *)
Definition os_path_exists (path : string) : Py bool :=
  λ w, (Return (bool_decide (is_Some (files w !! path))), w).

(** ** mutagen on the disk *)

(** [MP3(path, ID3=ID3)]: fails on a missing file and on a file with no
    MPEG frame to sync to. *)
Definition MP3_open (path : string) : Py MP3 :=
  λ w, match files w !! path with
       | None =>
           (Raise (MutagenError
                     ("[Errno 2] No such file or directory: '" +:+ path +:+ "'")), w)
       | Some f =>
           if mpeg f then (Return {| filename := path; tags := id3 f |}, w)
           else (Raise (MutagenError "can't sync to MPEG frame"), w)
       end.

(** [audio.tags.add(frame)] *)
Definition tags_add (frame : Frame) (audio : MP3) : Py MP3 :=
  match tags audio with
  | Some t => ret {| filename := filename audio; tags := Some (ID3_add frame t) |}
  | None => raise (AttributeError "'NoneType' object has no attribute 'add'")
  end.

(** [audio.save()]: writes the tags into the file it was opened from. *)
Definition save (audio : MP3) : Py unit :=
  λ w, match files w !! filename audio with
       | None =>
           (Raise (MutagenError
                     ("[Errno 2] No such file or directory: '"
                        +:+ filename audio +:+ "'")), w)
       | Some f =>
           if writable f then
             match tags audio with
             | Some t =>
                 (Return tt, set_files (<[filename audio := set_id3 t f]> (files w)) w)
             | None => (Return tt, w)
             end
           else
             (Raise (MutagenError
                       ("[Errno 13] Permission denied: '"
                          +:+ filename audio +:+ "'")), w)
       end.

(** ** The Tagger *)

(** The body of the [try] block of [add_metadata_to_mp3]. *)
Definition add_metadata_body (mp3_path : string)
    (metadata : gmap string string) (url : string) : Py unit :=
  audio <- MP3_open mp3_path ;;
  let audio := match tags audio with
               | None => add_tags audio
               | Some _ => audio
               end in
  title <- getitem metadata "title" ;;
  audio <- tags_add (TIT2 3 title) audio ;;
  author <- getitem metadata "author" ;;
  audio <- tags_add (TPE1 3 author) audio ;;
  audio <- tags_add (TALB 3 "YouTube") audio ;;
  description <- getitem metadata "description" ;;
  audio <- tags_add (COMM 3 "eng" "desc" description) audio ;;
  audio <- tags_add (COMM 3 "eng" "url" url) audio ;;
  save audio ;;
  print "Metadata added successfully to MP3.".

Definition add_metadata_to_mp3 (mp3_path : string)
    (metadata : gmap string string) (url : string) : Py unit :=
  try_except (add_metadata_body mp3_path metadata url)
    (λ e, print ("An error occurred while adding metadata to MP3: " +:+ str e)).

(** ** The collaborators of the Fetcher *)

(** The option dictionary handed to [YoutubeDL]. *)
Record Postprocessor : Type := {
  key : string;
  preferredcodec : string;
  preferredquality : string
}.

Record YdlOpts : Type := {
  format : string;
  postprocessors : list Postprocessor;
  outtmpl : string
}.

(** A [YoutubeDL] object, seen through the one method the Fetcher calls:
    [extract_info(url, download)] returns the metadata record or raises,
    and does to the world whatever the download and the transcoding do. *)
Record YoutubeDL_object : Type := {
  extract_info : string → bool → Py (gmap string string)
}.

(** What the run-time environment supplies: the identifier that the n-th
    call of [uuid.uuid4] produces (as [str] prints it), and the
    [YoutubeDL] constructor. *)
Class Platform : Type := {
  uuid4_str : nat → string;
  YoutubeDL : YdlOpts → YoutubeDL_object
}.

Section Fetcher.

Context `{Platform}.

(** [str(uuid.uuid4())] *)
Definition uuid4 : Py string :=
  λ w, (Return (uuid4_str (uuid_draws w)),
        {| files := files w; stdout := stdout w;
           uuid_draws := S (uuid_draws w) |}).

Definition ydl_opts (output_path random_filename : string) : YdlOpts :=
  {| format := "bestaudio/best";
     postprocessors :=
       [ {| key := "FFmpegExtractAudio";
            preferredcodec := "mp3";
            preferredquality := "192" |} ];
     outtmpl := os_path_join output_path (random_filename +:+ ".%(ext)s") |}.

(** [with YoutubeDL(ydl_opts) as ydl: ...]: entering and leaving the
    context neither touch the files nor swallow an exception of the
    block. *)
Definition with_YoutubeDL {A} (opts : YdlOpts)
    (block : YoutubeDL_object → Py A) : Py A :=
  block (YoutubeDL opts).

(** The body of the [try] block of [download_youtube_audio], once
    [random_filename] is drawn. *)
Definition download_body (url output_path random_filename : string)
    : Py (option (gmap string string)) :=
  block <-
    with_YoutubeDL (ydl_opts output_path random_filename) (λ ydl,
      info <- extract_info ydl url true ;;
      let audio_path := os_path_join output_path (random_filename +:+ ".mp3") in
      found <- os_path_exists audio_path ;;
      if negb found then
        raise (FileNotFoundError
                 ("Could not find the downloaded MP3 file: " +:+ audio_path))
      else ret (info, audio_path)) ;;
  let '(info, audio_path) := block in
  title <- getitem info "title" ;;
  uploader <- getitem info "uploader" ;;
  let metadata : gmap string string :=
    <["description" := get info "description" ""]>
      (<["author" := uploader]> {["title" := title]}) in
  add_metadata_to_mp3 audio_path metadata url ;;
  title' <- getitem info "title" ;;
  print ("Downloaded and extracted audio successfully: " +:+ title') ;;
  print ("File saved as: " +:+ audio_path) ;;
  title'' <- getitem info "title" ;;
  uploader'' <- getitem info "uploader" ;;
  ret (Some (<["url" := url]>
               (<["author" := uploader'']>
                  (<["title" := title'']> {["audio_path" := audio_path]})))).

(** [download_youtube_audio(url, output_path)]; a caller that leaves
    [output_path] out passes its default ['.'].  The result is the
    returned dictionary, or [None]. *)
Definition download_youtube_audio (url output_path : string)
    : Py (option (gmap string string)) :=
  random_filename <- uuid4 ;;
  try_except (download_body url output_path random_filename)
    (λ e, print ("An error occurred while downloading YouTube audio: " +:+ str e) ;;
          ret None).

End Fetcher.

(** ** Observations on a run *)

(** The world after [line] is printed. *)
Definition printed (line : string) (w : World) : World := (print line w).2.

(** The tags a completed Tagger run leaves in a file that carried [old]. *)
Definition tagged (title author description url : string) (old : ID3) : ID3 :=
  ID3_add (COMM 3 "eng" "url" url)
    (ID3_add (COMM 3 "eng" "desc" description)
       (ID3_add (TALB 3 "YouTube")
          (ID3_add (TPE1 3 author)
             (ID3_add (TIT2 3 title) old)))).

(** The two lines the Tagger can print: the one that ends a completed
    [try] block and the one its handler prints for [e]. *)
Definition tag_success : string := "Metadata added successfully to MP3.".

Definition tag_error (e : Exception) : string :=
  "An error occurred while adding metadata to MP3: " +:+ str e.

(** The hash keys of the frames the Tagger adds. *)
Definition tagger_keys : list string :=
  ["TIT2"; "TPE1"; "TALB"; "COMM:desc:eng"; "COMM:url:eng"].

Section Run.

Context `{Platform}.

(** The identifier an invocation started in [w] draws, the world once it
    is drawn, and the path the Fetcher expects the MP3 at. *)
Definition drawn (w : World) : string := uuid4_str (uuid_draws w).

Definition after_draw (w : World) : World := (uuid4 w).2.

Definition expected_path (output_path : string) (w : World) : string :=
  os_path_join output_path (drawn w +:+ ".mp3").

(** The extraction and transcoding step of an invocation started in [w]. *)
Definition extraction (url output_path : string) (w : World)
    : Outcome (gmap string string) * World :=
  extract_info (YoutubeDL (ydl_opts output_path (drawn w))) url true
    (after_draw w).

(** The [try] block of an invocation started in [w]. *)
Definition try_block (url output_path : string) (w : World)
    : Outcome (option (gmap string string)) * World :=
  download_body url output_path (drawn w) (after_draw w).

(** The line the handler of the Fetcher prints for [e]. *)
Definition fetch_error (e : Exception) : string :=
  "An error occurred while downloading YouTube audio: " +:+ str e.

(** The metadata record the Fetcher hands to the Tagger. *)
Definition metadata_of (info : gmap string string) (title uploader : string)
    : gmap string string :=
  <["description" := get info "description" ""]>
    (<["author" := uploader]> {["title" := title]}).

(** The mapping a successful run returns. *)
Definition result_of (audio_path title uploader url : string)
    : gmap string string :=
  <["url" := url]>
    (<["author" := uploader]>
       (<["title" := title]> {["audio_path" := audio_path]})).

End Run.

(** ** Scripted platforms

    Concrete collaborators, used to run the two functions on explicit
    inputs. *)

Module Script.

(** The file an extractor writes for the template [outtmpl]: the
    placeholder [%(ext)s] at its end becomes [mp3]. *)
Definition mp3_of_outtmpl (t : string) : string :=
  String.substring 0 (String.length t - 7) t +:+ "mp3".

(** An extractor that writes [written] (if any) where the template says
    and then returns or raises [result]. *)
Definition scripted_YoutubeDL (written : option File)
    (result : Outcome (gmap string string)) (opts : YdlOpts)
    : YoutubeDL_object :=
  {| extract_info := λ url download w,
       (result,
        match written with
        | Some f => set_files (<[mp3_of_outtmpl (outtmpl opts) := f]> (files w)) w
        | None => w
        end) |}.

Definition platform (written : option File)
    (result : Outcome (gmap string string)) : Platform :=
  {| uuid4_str := λ _, "1b4e28ba-2fa1-41d2-883f-0016d3cca427";
     YoutubeDL := scripted_YoutubeDL written result |}.

Definition url : string := "https://www.youtube.com/watch?v=jNQXAC9IVRw".

Definition mp3_path : string :=
  "downloads/1b4e28ba-2fa1-41d2-883f-0016d3cca427.mp3".

(** A freshly transcoded MP3 without tags, and a file that is no MPEG
    stream. *)
Definition fresh_mp3 : File := {| mpeg := true; id3 := None; writable := true |}.
Definition broken_file : File := {| mpeg := false; id3 := None; writable := true |}.

Definition empty_disk : World := {| files := ∅; stdout := []; uuid_draws := 0 |}.

Definition one_mp3 : World :=
  {| files := {[mp3_path := fresh_mp3]}; stdout := []; uuid_draws := 0 |}.

(** Metadata records of the extractor: complete, without 'uploader',
    without 'description'. *)
Definition full_info : gmap string string :=
  <["description" := "The first video on YouTube."]>
    (<["uploader" := "jawed"]> {["title" := "Me at the zoo"]}).

Definition info_without_uploader : gmap string string :=
  {["title" := "Me at the zoo"]}.


(** A metadata record for the Tagger. *)
Definition metadata : gmap string string :=
  <["description" := "The first video on YouTube."]>
    (<["author" := "jawed"]> {["title" := "Me at the zoo"]}).

(** Four runs: the extractor writes nothing; it writes the MP3 but
    its record lacks 'uploader'; it leaves a broken file; its record
    lacks 'description'. *)
Definition writes_nothing : Platform := platform None (Return full_info).

Definition lacks_uploader : Platform :=
  platform (Some fresh_mp3) (Return info_without_uploader).

Definition leaves_broken_file : Platform :=
  platform (Some broken_file) (Return full_info).


(** More inputs for the Tagger: a second record and URL, a record without
    'description', an MP3 that may not be written, and an MP3 that already
    carries a frame of its own. *)
Definition other_metadata : gmap string string :=
  <["description" := "Re-upload"]>
    (<["author" := "archive"]> {["title" := "Zoo, 2005"]}).

Definition other_url : string := "https://youtu.be/jNQXAC9IVRw".

Definition metadata_without_description : gmap string string :=
  <["author" := "jawed"]> {["title" := "Me at the zoo"]}.

Definition locked_mp3 : File := {| mpeg := true; id3 := None; writable := false |}.

Definition one_locked_mp3 : World :=
  {| files := {[mp3_path := locked_mp3]}; stdout := []; uuid_draws := 0 |}.


End Script.

(** * Properties *)

(** ** Paths *)

Lemma string_length_app (x y : string) :
  String.length (x +:+ y) = String.length x + String.length y.
Proof. induction x as [|c x IH]; simpl; [done|by rewrite IH]. Qed.

Lemma string_app_inv_tail (x y s : string) : x +:+ s = y +:+ s → x = y.
Proof.
  intros Heq.
  assert (Hlen : String.length x = String.length y).
  { apply (f_equal String.length) in Heq.
    rewrite !string_length_app in Heq. lia. }
  revert y Heq Hlen.
  induction x as [|c x IH]; intros [|d y] Heq Hlen; simpl in *; try done.
  injection Heq as -> Heq. f_equal. apply IH; [done|lia].
Qed.

Lemma startswith_sep_mp3 (name : string) :
  startswith_sep (name +:+ ".mp3") = startswith_sep name.
Proof. by destruct name. Qed.

(** X11. In one directory, two identifiers that differ (and, like every
    identifier [uuid4] prints, do not start with a slash) give two
    different MP3 paths. *)
Lemma mp3_path_distinct (output_path id1 id2 : string) :
  startswith_sep id1 = false →
  startswith_sep id2 = false →
  id1 ≠ id2 →
  os_path_join output_path (id1 +:+ ".mp3")
  ≠ os_path_join output_path (id2 +:+ ".mp3").
Proof.
  intros H1 H2 Hne Heq. apply Hne.
  unfold os_path_join in Heq.
  rewrite !startswith_sep_mp3, H1, H2 in Heq.
  destruct (bool_decide (output_path = "") || endswith_sep output_path).
  - apply (inj (String.app output_path)) in Heq.
    by apply string_app_inv_tail in Heq.
  - apply (inj (String.app output_path)) in Heq.
    apply (inj (String.app "/")) in Heq.
    by apply string_app_inv_tail in Heq.
Qed.

(** ** The Tagger, step by step *)

Lemma add_metadata_body_run mp3_path metadata url w :
  add_metadata_body mp3_path metadata url w =
  match files w !! mp3_path with
  | None =>
      (Raise (MutagenError
                ("[Errno 2] No such file or directory: '" +:+ mp3_path +:+ "'")), w)
  | Some f =>
      if mpeg f then
        match metadata !! "title" with
        | None => (Raise (KeyError "title"), w)
        | Some title =>
            match metadata !! "author" with
            | None => (Raise (KeyError "author"), w)
            | Some author =>
                match metadata !! "description" with
                | None => (Raise (KeyError "description"), w)
                | Some description =>
                    if writable f then
                      (Return tt,
                       printed "Metadata added successfully to MP3."
                         (set_files
                            (<[mp3_path :=
                                 set_id3 (tagged title author description url
                                            (default ∅ (id3 f))) f]> (files w)) w))
                    else
                      (Raise (MutagenError
                                ("[Errno 13] Permission denied: '"
                                   +:+ mp3_path +:+ "'")), w)
                end
            end
        end
      else (Raise (MutagenError "can't sync to MPEG frame"), w)
  end.
Proof.
  unfold add_metadata_body, bind, MP3_open.
  destruct (files w !! mp3_path) as [f|] eqn:Hf; [|done].
  destruct (mpeg f); [|done].
  unfold getitem, tags_add.
  destruct (id3 f) as [t|]; simpl;
    (destruct (metadata !! "title"); [|done]);
    (destruct (metadata !! "author"); [|done]);
    (destruct (metadata !! "description"); [|done]);
    simpl; unfold save; simpl; rewrite Hf;
    destruct (writable f); done.
Qed.

Lemma add_metadata_to_mp3_run mp3_path metadata url w :
  add_metadata_to_mp3 mp3_path metadata url w =
  (Return tt,
   match add_metadata_body mp3_path metadata url w with
   | (Return _, w') => w'
   | (Raise e, w') =>
       printed ("An error occurred while adding metadata to MP3: " +:+ str e) w'
   end).
Proof.
  unfold add_metadata_to_mp3, try_except.
  destruct (add_metadata_body mp3_path metadata url w) as [[[]|e] w']; done.
Qed.

(** A failing [try] block of the Tagger leaves the world as it found it:
    [save] is its last fallible step. *)
Lemma add_metadata_body_raise mp3_path metadata url w e w' :
  add_metadata_body mp3_path metadata url w = (Raise e, w') → w' = w.
Proof.
  rewrite add_metadata_body_run. intros Hrun.
  repeat case_match; congruence.
Qed.

Lemma files_printed line w : files (printed line w) = files w.
Proof. done. Qed.

(** The Tagger never adds or removes a path. *)
Lemma add_metadata_to_mp3_dom mp3_path metadata url w :
  dom (files (add_metadata_to_mp3 mp3_path metadata url w).2) = dom (files w).
Proof.
  rewrite add_metadata_to_mp3_run, add_metadata_body_run.
  destruct (files w !! mp3_path) as [f|] eqn:Hf; [|done].
  destruct (mpeg f); [|done].
  destruct (metadata !! "title"); [|done].
  destruct (metadata !! "author"); [|done].
  destruct (metadata !! "description"); [|done].
  destruct (writable f); [|done].
  simpl. apply dom_insert_lookup_L. eauto.
Qed.

(** ** The tag dictionary *)

Lemma tagged_lookup title author description url old :
  tagged title author description url old !! "TIT2" = Some (TIT2 3 title)
  ∧ tagged title author description url old !! "TPE1" = Some (TPE1 3 author)
  ∧ tagged title author description url old !! "TALB" = Some (TALB 3 "YouTube")
  ∧ tagged title author description url old !! "COMM:desc:eng"
    = Some (COMM 3 "eng" "desc" description)
  ∧ tagged title author description url old !! "COMM:url:eng"
    = Some (COMM 3 "eng" "url" url).
Proof.
  unfold tagged, ID3_add; simpl. repeat split; by simplify_map_eq.
Qed.

Lemma tagged_other title author description url old k :
  k ∉ tagger_keys →
  tagged title author description url old !! k = old !! k.
Proof.
  unfold tagger_keys, tagged, ID3_add; simpl. intros Hk.
  rewrite !lookup_insert_ne; [done | set_solver..].
Qed.

Lemma tagged_idemp title author description url old :
  tagged title author description url (tagged title author description url old)
  = tagged title author description url old.
Proof.
  apply map_eq; intros k.
  destruct (decide (k ∈ tagger_keys)) as [Hin|Hout].
  - destruct (tagged_lookup title author description url old)
      as (H1 & H2 & H3 & H4 & H5).
    destruct (tagged_lookup title author description url
                (tagged title author description url old))
      as (G1 & G2 & G3 & G4 & G5).
    unfold tagger_keys in Hin.
    repeat (apply elem_of_cons in Hin as [->|Hin]; [congruence|]).
    by apply elem_of_nil in Hin.
  - by rewrite tagged_other.
Qed.

(** ** Claims about the Tagger *)


(** C4. [add_metadata_to_mp3] is idempotent on the disk: a second call
    with the same path, metadata and URL leaves every file, and so the tags
    of the MP3, exactly as the first call left them.  Each frame is stored
    under its hash key, so the second call replaces the five frames and the
    only COMM frames it leaves under the descriptors "desc" and "url" are
    the two of the first call. *)
Theorem add_metadata_idempotent mp3_path metadata url w :
  let once := (add_metadata_to_mp3 mp3_path metadata url w).2 in
  let twice := (add_metadata_to_mp3 mp3_path metadata url once).2 in
  files twice = files once.
Proof.
  simpl. rewrite !add_metadata_to_mp3_run. simpl.
  rewrite (add_metadata_body_run _ _ _ w).
  destruct (files w !! mp3_path) as [f|] eqn:Hf; cycle 1.
  { rewrite add_metadata_body_run. simpl. by rewrite Hf. }
  destruct (mpeg f) eqn:Hmpeg; cycle 1.
  { rewrite add_metadata_body_run. simpl. by rewrite Hf, Hmpeg. }
  destruct (metadata !! "title") as [title|] eqn:Ht; cycle 1.
  { rewrite add_metadata_body_run. simpl. by rewrite Hf, Hmpeg, Ht. }
  destruct (metadata !! "author") as [author|] eqn:Ha; cycle 1.
  { rewrite add_metadata_body_run. simpl. by rewrite Hf, Hmpeg, Ht, Ha. }
  destruct (metadata !! "description") as [description|] eqn:Hd; cycle 1.
  { rewrite add_metadata_body_run. simpl. by rewrite Hf, Hmpeg, Ht, Ha, Hd. }
  destruct (writable f) eqn:Hw; cycle 1.
  { rewrite add_metadata_body_run. simpl. by rewrite Hf, Hmpeg, Ht, Ha, Hd, Hw. }
  rewrite add_metadata_body_run. simpl.
  rewrite lookup_insert_eq. simpl.
  rewrite Hmpeg, Ht, Ha, Hd, Hw. simpl.
  rewrite insert_insert_eq, tagged_idemp. done.
Qed.

(** ** The Fetcher, step by step *)

Section FetcherRun.

Context `{Platform}.

Lemma try_block_run url output_path w :
  try_block url output_path w =
  match extraction url output_path w with
  | (Raise e, w1) => (Raise e, w1)
  | (Return info, w1) =>
      match files w1 !! expected_path output_path w with
      | None =>
          (Raise (FileNotFoundError
                    ("Could not find the downloaded MP3 file: "
                       +:+ expected_path output_path w)), w1)
      | Some _ =>
          match info !! "title" with
          | None => (Raise (KeyError "title"), w1)
          | Some title =>
              match info !! "uploader" with
              | None => (Raise (KeyError "uploader"), w1)
              | Some uploader =>
                  (Return (Some (result_of (expected_path output_path w)
                                   title uploader url)),
                   printed ("File saved as: " +:+ expected_path output_path w)
                     (printed ("Downloaded and extracted audio successfully: "
                                 +:+ title)
                        (add_metadata_to_mp3 (expected_path output_path w)
                           (metadata_of info title uploader) url w1).2))
              end
          end
      end
  end.
Proof.
  unfold try_block, download_body, with_YoutubeDL, extraction, bind.
  fold (expected_path output_path w).
  destruct (extract_info _ url true (after_draw w)) as [[info|e] w1]; [|done].
  unfold os_path_exists.
  destruct (files w1 !! expected_path output_path w) as [f|] eqn:Hf; simpl;
    [|done].
  unfold getitem.
  destruct (info !! "title") as [title|]; [|done].
  destruct (info !! "uploader") as [uploader|]; [|done]. simpl.
  fold (metadata_of info title uploader).
  rewrite add_metadata_to_mp3_run. done.
Qed.

Lemma download_youtube_audio_run url output_path w :
  download_youtube_audio url output_path w =
  match try_block url output_path w with
  | (Return r, w') => (Return r, w')
  | (Raise e, w') => (Return None, printed (fetch_error e) w')
  end.
Proof.
  unfold download_youtube_audio, bind, try_except, try_block, after_draw.
  change (uuid4 w) with (Return (drawn w), (uuid4 w).2).
  destruct (download_body url output_path (drawn w) (uuid4 w).2)
    as [[r|e] w']; done.
Qed.

End FetcherRun.

(** ** Claims about the error boundaries *)

Section Boundaries.

Context `{Platform}.

(** C1. Neither function lets an exception reach its caller.  Whatever
    the URL, the directory and the world, [download_youtube_audio]
    returns; when its [try] block raised [e] it returns [None] after
    printing one diagnostic line for [e].  Whatever the path, the
    metadata and the world, [add_metadata_to_mp3] returns (nothing), and
    when its [try] block raised [e] it has printed one diagnostic line
    for [e]. *)
Theorem exceptions_never_escape :
  (∀ url output_path w,
     ∃ r w',
       download_youtube_audio url output_path w = (Return r, w')
       ∧ ∀ e w1, try_block url output_path w = (Raise e, w1) →
                 r = None ∧ w' = printed (fetch_error e) w1)
  ∧ (∀ mp3_path metadata url w,
     ∃ w',
       add_metadata_to_mp3 mp3_path metadata url w = (Return tt, w')
       ∧ ∀ e w1, add_metadata_body mp3_path metadata url w = (Raise e, w1) →
                 w' = printed ("An error occurred while adding metadata to MP3: "
                                 +:+ str e) w1).
Proof.
  split.
  - intros url output_path w. rewrite download_youtube_audio_run.
    destruct (try_block url output_path w) as [[r|e] w1].
    + exists r, w1. split; [done|]. intros e w2 [=].
    + exists None, (printed (fetch_error e) w1). split; [done|].
      by intros e' w2 [= <- <-].
  - intros mp3_path metadata url w. rewrite add_metadata_to_mp3_run.
    eexists. split; [done|]. by intros e w1 ->.
Qed.

(** C2. When the extraction step has returned and the expected file
    [{output_path}/{random_filename}.mp3] is not on disk, the [try] block
    raises a [FileNotFoundError] whose message carries the expected path;
    the handler of the function catches it, prints it, and the function
    returns [None]. *)
Theorem missing_output_file_returns_None url output_path w info w1 :
  extraction url output_path w = (Return info, w1) →
  files w1 !! expected_path output_path w = None →
  try_block url output_path w
  = (Raise (FileNotFoundError
              ("Could not find the downloaded MP3 file: "
                 +:+ expected_path output_path w)), w1)
  ∧ download_youtube_audio url output_path w
    = (Return None,
       printed ("An error occurred while downloading YouTube audio: "
                  +:+ "Could not find the downloaded MP3 file: "
                  +:+ expected_path output_path w) w1).
Proof.
  intros Hx Hf.
  rewrite download_youtube_audio_run, try_block_run, Hx, Hf. done.
Qed.

(** C9. When the extraction step has returned, the MP3 is on disk, and
    the metadata record lacks the key 'title' or the key 'uploader', the
    lookup raises a [KeyError] that the handler swallows: the function
    returns [None], and the MP3 stays on disk as the extraction left
    it. *)
Theorem missing_title_or_uploader_returns_None url output_path w info w1 f :
  extraction url output_path w = (Return info, w1) →
  files w1 !! expected_path output_path w = Some f →
  info !! "title" = None ∨ info !! "uploader" = None →
  ∃ k, (k = "title" ∨ k = "uploader")
       ∧ info !! k = None
       ∧ try_block url output_path w = (Raise (KeyError k), w1)
       ∧ download_youtube_audio url output_path w
         = (Return None, printed (fetch_error (KeyError k)) w1)
       ∧ files (download_youtube_audio url output_path w).2
           !! expected_path output_path w = Some f.
Proof.
  intros Hx Hf Hlack.
  rewrite download_youtube_audio_run, try_block_run, Hx, Hf.
  destruct (info !! "title") as [title|] eqn:Ht.
  - destruct Hlack as [?|Hu]; [done|]. rewrite Hu.
    exists "uploader". by repeat split; eauto.
  - exists "title". by repeat split; eauto.
Qed.

(** C10. A failure inside [add_metadata_to_mp3] does not change what
    [download_youtube_audio] returns.  When the extraction step has
    returned, the MP3 is on disk and the record has 'title' and
    'uploader', a Tagger whose [try] block raises leaves every file as
    the extraction left it, so none of the tag fields is written, and the
    Fetcher still returns the full mapping. *)
Theorem tagger_failure_keeps_result
    url output_path w info w1 f title uploader e w2 :
  extraction url output_path w = (Return info, w1) →
  files w1 !! expected_path output_path w = Some f →
  info !! "title" = Some title →
  info !! "uploader" = Some uploader →
  add_metadata_body (expected_path output_path w)
    (metadata_of info title uploader) url w1 = (Raise e, w2) →
  (download_youtube_audio url output_path w).1
  = Return (Some (result_of (expected_path output_path w) title uploader url))
  ∧ files (download_youtube_audio url output_path w).2 = files w1
  ∧ files (download_youtube_audio url output_path w).2
      !! expected_path output_path w = Some f.
Proof.
  intros Hx Hf Ht Hu Htag.
  rewrite download_youtube_audio_run, try_block_run, Hx, Hf, Ht, Hu.
  rewrite add_metadata_to_mp3_run, Htag. simpl.
  apply add_metadata_body_raise in Htag as ->. done.
Qed.

End Boundaries.

(** ** Claims about the result and the disk *)

Section Results.

Context `{Platform}.

(** C6. A run succeeds when the extraction step returns a record, the
    MP3 is on disk and the record has 'title' and 'uploader'.  Every
    such run returns a mapping whose keys are exactly audio_path, title,
    author and url: title and author are the record's 'title' and
    'uploader', url is the input URL, and audio_path is the path of the
    MP3, which is on disk when the function returns.  Every other run
    returns [None]. *)
Theorem result_mapping url output_path w :
  match extraction url output_path w with
  | (Return info, w1) =>
      match files w1 !! expected_path output_path w,
            info !! "title", info !! "uploader" with
      | Some _, Some title, Some uploader =>
          ∃ r w',
            download_youtube_audio url output_path w = (Return (Some r), w')
            ∧ dom r = {["audio_path"; "title"; "author"; "url"]}
            ∧ r !! "audio_path" = Some (expected_path output_path w)
            ∧ r !! "title" = Some title
            ∧ r !! "author" = Some uploader
            ∧ r !! "url" = Some url
            ∧ is_Some (files w' !! expected_path output_path w)
      | _, _, _ =>
          (download_youtube_audio url output_path w).1 = Return None
      end
  | (Raise _, _) =>
      (download_youtube_audio url output_path w).1 = Return None
  end.
Proof.
  rewrite download_youtube_audio_run, try_block_run.
  destruct (extraction url output_path w) as [[info|e] w1]; [|done].
  destruct (files w1 !! expected_path output_path w) as [f|] eqn:Hf; [|done].
  destruct (info !! "title") as [title|]; [|done].
  destruct (info !! "uploader") as [uploader|]; [|done].
  do 2 eexists. split; [done|].
  unfold result_of. split_and!; try by simplify_map_eq.
  rewrite !files_printed. apply elem_of_dom.
  rewrite add_metadata_to_mp3_dom. apply elem_of_dom. eauto.
Qed.


(** C3, as the code has it.  The Fetcher creates and removes no file of
    its own: the paths on disk when it returns are those the extraction
    step left.  A run that returns the mapping has the MP3 at the
    returned audio_path; a run that returns [None] leaves every file as
    the extraction step left it, with no clean-up. *)
Theorem fetcher_keeps_extraction_files url output_path w :
  let w1 := (extraction url output_path w).2 in
  let w' := (download_youtube_audio url output_path w).2 in
  dom (files w') = dom (files w1)
  ∧ match (download_youtube_audio url output_path w).1 with
    | Return (Some r) =>
        r !! "audio_path" = Some (expected_path output_path w)
        ∧ is_Some (files w' !! expected_path output_path w)
    | Return None => files w' = files w1
    | Raise _ => False
    end.
Proof.
  cbv zeta. rewrite download_youtube_audio_run, try_block_run.
  destruct (extraction url output_path w) as [[info|e] w1]; [|done].
  destruct (files w1 !! expected_path output_path w) as [f|] eqn:Hf; [|done].
  destruct (info !! "title") as [title|]; [|done].
  destruct (info !! "uploader") as [uploader|]; [|done].
  cbn [fst snd]. rewrite !files_printed, add_metadata_to_mp3_dom.
  split; [done|]. split; [by unfold result_of; simplify_map_eq|].
  apply elem_of_dom. rewrite add_metadata_to_mp3_dom.
  apply elem_of_dom. eauto.
Qed.

End Results.

(** ** The claims on scripted runs *)

Example run_success :
  (@download_youtube_audio
     (Script.platform (Some Script.fresh_mp3) (Return Script.full_info))
     Script.url "downloads" Script.empty_disk).1
  = Return (Some (result_of Script.mp3_path "Me at the zoo" "jawed" Script.url)).
Proof. vm_compute. reflexivity. Qed.

Example run_success_stdout :
  stdout (@download_youtube_audio
            (Script.platform (Some Script.fresh_mp3) (Return Script.full_info))
            Script.url "downloads" Script.empty_disk).2
  = [ "Metadata added successfully to MP3.";
      "Downloaded and extracted audio successfully: Me at the zoo";
      "File saved as: downloads/1b4e28ba-2fa1-41d2-883f-0016d3cca427.mp3" ].
Proof. vm_compute. reflexivity. Qed.

Example run_extraction_error :
  @download_youtube_audio
    (Script.platform None (Raise (DownloadError "ERROR: Unsupported URL: nowhere")))
    "nowhere" "downloads" Script.empty_disk
  = (Return None,
     {| files := ∅;
        stdout := ["An error occurred while downloading YouTube audio: ERROR: Unsupported URL: nowhere"];
        uuid_draws := 1 |}).
Proof. vm_compute. reflexivity. Qed.


(** C2 on a run whose extractor returns a record and writes nothing. *)
Lemma missing_output_file_witness :
  @extraction Script.writes_nothing Script.url "downloads" Script.empty_disk
  = (Return Script.full_info, (@extraction Script.writes_nothing Script.url "downloads" Script.empty_disk).2)
  ∧ @download_youtube_audio Script.writes_nothing Script.url "downloads" Script.empty_disk
    = (Return None,
       printed ("An error occurred while downloading YouTube audio: "
                  +:+ "Could not find the downloaded MP3 file: "
                  +:+ Script.mp3_path)
         (@extraction Script.writes_nothing Script.url "downloads" Script.empty_disk).2).
Proof.
  split; [vm_compute; reflexivity|].
  apply (@missing_output_file_returns_None Script.writes_nothing Script.url "downloads"
           Script.empty_disk Script.full_info
           (@extraction Script.writes_nothing Script.url "downloads" Script.empty_disk).2);
    vm_compute; reflexivity.
Defined.

(** C9 on a run whose extractor writes the MP3 and returns a record
    without 'uploader'. *)
Lemma missing_uploader_witness :
  ∃ k, (k = "title" ∨ k = "uploader")
       ∧ Script.info_without_uploader !! k = None
       ∧ @try_block Script.lacks_uploader Script.url "downloads" Script.empty_disk
         = (Raise (KeyError k),
            (@extraction Script.lacks_uploader Script.url "downloads" Script.empty_disk).2)
       ∧ @download_youtube_audio Script.lacks_uploader Script.url "downloads" Script.empty_disk
         = (Return None,
            printed (fetch_error (KeyError k))
              (@extraction Script.lacks_uploader Script.url "downloads" Script.empty_disk).2)
       ∧ files (@download_youtube_audio Script.lacks_uploader Script.url "downloads" Script.empty_disk).2
           !! @expected_path Script.lacks_uploader "downloads" Script.empty_disk
         = Some Script.fresh_mp3.
Proof.
  apply (@missing_title_or_uploader_returns_None Script.lacks_uploader Script.url "downloads"
           Script.empty_disk Script.info_without_uploader
           (@extraction Script.lacks_uploader Script.url "downloads" Script.empty_disk).2
           Script.fresh_mp3).
  - vm_compute; reflexivity.
  - vm_compute; reflexivity.
  - right. vm_compute; reflexivity.
Defined.

(** C10 on a run whose extractor leaves a file mutagen cannot sync to. *)
Lemma tagger_failure_witness :
  (@download_youtube_audio Script.leaves_broken_file Script.url "downloads" Script.empty_disk).1
  = Return (Some (result_of Script.mp3_path "Me at the zoo" "jawed" Script.url))
  ∧ files (@download_youtube_audio Script.leaves_broken_file Script.url "downloads" Script.empty_disk).2
    = files (@extraction Script.leaves_broken_file Script.url "downloads" Script.empty_disk).2
  ∧ files (@download_youtube_audio Script.leaves_broken_file Script.url "downloads" Script.empty_disk).2
      !! Script.mp3_path = Some Script.broken_file.
Proof.
  apply (@tagger_failure_keeps_result Script.leaves_broken_file Script.url "downloads"
           Script.empty_disk Script.full_info
           (@extraction Script.leaves_broken_file Script.url "downloads" Script.empty_disk).2
           Script.broken_file "Me at the zoo" "jawed"
           (MutagenError "can't sync to MPEG frame")
           (@extraction Script.leaves_broken_file Script.url "downloads" Script.empty_disk).2);
    vm_compute; reflexivity.
Defined.


(** C3 fails as stated: a failing run may leave a file on disk.  On an
    empty disk, with an extractor that writes the MP3 and returns a record
    without 'uploader', the function returns [None] and the MP3 written
    during the run is still there. *)
Lemma failure_leaves_file :
  ¬ (∀ (P : Platform) url output_path w,
       (@download_youtube_audio P url output_path w).1 = Return None →
       files (@download_youtube_audio P url output_path w).2 = files w).
Proof.
  intros Hclaim.
  specialize (Hclaim (Script.platform (Some Script.fresh_mp3)
                        (Return Script.info_without_uploader))
                Script.url "downloads" Script.empty_disk).
  assert (files Script.empty_disk !! Script.mp3_path = Some Script.fresh_mp3)
    as Habs; [|by vm_compute in Habs].
  rewrite <- Hclaim; vm_compute; reflexivity.
Qed.

(** * Further properties of the two functions *)

(** ** The Tagger *)

Lemma tagged_overwrite t1 a1 d1 u1 t2 a2 d2 u2 old :
  tagged t2 a2 d2 u2 (tagged t1 a1 d1 u1 old) = tagged t2 a2 d2 u2 old.
Proof.
  apply map_eq; intros k.
  destruct (decide (k ∈ tagger_keys)) as [Hin|Hout].
  - destruct (tagged_lookup t2 a2 d2 u2 old) as (H1 & H2 & H3 & H4 & H5).
    destruct (tagged_lookup t2 a2 d2 u2 (tagged t1 a1 d1 u1 old))
      as (G1 & G2 & G3 & G4 & G5).
    unfold tagger_keys in Hin.
    repeat (apply elem_of_cons in Hin as [->|Hin]; [congruence|]).
    by apply elem_of_nil in Hin.
  - by rewrite !tagged_other.
Qed.


(** X1. The Tagger is all or nothing.  When its [try] block raises,
    whatever the step that failed, the call returns with the world as it
    found it but for one printed line: no file is changed, so no frame of
    a half-done update is ever saved. *)
Theorem tagger_all_or_nothing mp3_path metadata url w e w1 :
  add_metadata_body mp3_path metadata url w = (Raise e, w1) →
  add_metadata_to_mp3 mp3_path metadata url w
  = (Return tt, printed (tag_error e) w).
Proof.
  intros Hrun. rewrite add_metadata_to_mp3_run, Hrun.
  by apply add_metadata_body_raise in Hrun as ->.
Qed.

(** X2. The Tagger needs all of 'title', 'author' and 'description'.
    With a record that lacks one of them it saves nothing, not even the
    frames whose values it has, and prints one error line; when the file
    opens, that line names a missing key. *)
Theorem tagger_needs_every_key mp3_path metadata url w :
  metadata !! "title" = None ∨ metadata !! "author" = None
    ∨ metadata !! "description" = None →
  ∃ e,
    add_metadata_to_mp3 mp3_path metadata url w
    = (Return tt, printed (tag_error e) w)
    ∧ ∀ f, files w !! mp3_path = Some f → mpeg f = true →
           ∃ k, e = KeyError k ∧ k ∈ ["title"; "author"; "description"]
                ∧ metadata !! k = None.
Proof.
  intros Hlack.
  rewrite add_metadata_to_mp3_run, add_metadata_body_run.
  destruct (files w !! mp3_path) as [f|] eqn:Hf;
    [|eexists; split; [done|]; intros ? [=]].
  destruct (mpeg f) eqn:Hmpeg;
    [|eexists; split; [done|]; intros ? [= <-]; congruence].
  destruct (metadata !! "title") eqn:Ht; cycle 1.
  { eexists; split; [done|]. intros _ _ _. exists "title".
    split_and!; [done| |done]. rewrite !elem_of_cons. tauto. }
  destruct (metadata !! "author") eqn:Ha; cycle 1.
  { eexists; split; [done|]. intros _ _ _. exists "author".
    split_and!; [done| |done]. rewrite !elem_of_cons. tauto. }
  destruct (metadata !! "description") eqn:Hd; cycle 1.
  { eexists; split; [done|]. intros _ _ _. exists "description".
    split_and!; [done| |done]. rewrite !elem_of_cons. tauto. }
  destruct Hlack as [?|[?|?]]; congruence.
Qed.

(** X3. The last call wins.  Tagging a file with one record and URL and
    then with a complete second record and URL leaves the disk as tagging
    it with the second alone: nothing of the first call's five frames
    survives. *)
Theorem tagger_last_call_wins mp3_path metadata1 url1 metadata2 url2 w :
  is_Some (metadata2 !! "title") →
  is_Some (metadata2 !! "author") →
  is_Some (metadata2 !! "description") →
  files (add_metadata_to_mp3 mp3_path metadata2 url2
           (add_metadata_to_mp3 mp3_path metadata1 url1 w).2).2
  = files (add_metadata_to_mp3 mp3_path metadata2 url2 w).2.
Proof.
  intros [t2 Ht2] [a2 Ha2] [d2 Hd2].
  rewrite !add_metadata_to_mp3_run. cbn [snd].
  destruct (add_metadata_body mp3_path metadata1 url1 w) as [[[]|e] w1] eqn:Hrun1.
  - rewrite add_metadata_body_run in Hrun1.
    destruct (files w !! mp3_path) as [f|] eqn:Hf; [|done].
    destruct (mpeg f) eqn:Hmpeg; [|done].
    destruct (metadata1 !! "title") as [t1|]; [|done].
    destruct (metadata1 !! "author") as [a1|]; [|done].
    destruct (metadata1 !! "description") as [d1|]; [|done].
    destruct (writable f) eqn:Hw; [|done].
    injection Hrun1 as <-.
    rewrite !add_metadata_body_run, files_printed. simpl.
    rewrite lookup_insert_eq, Hf. simpl.
    rewrite Hmpeg, Ht2, Ha2, Hd2, Hw. simpl.
    by rewrite insert_insert_eq, tagged_overwrite.
  - apply add_metadata_body_raise in Hrun1 as ->.
    rewrite !add_metadata_body_run, files_printed.
    destruct (files w !! mp3_path) as [f|]; [|done].
    destruct (mpeg f); [|done].
    rewrite Ht2, Ha2, Hd2. by destruct (writable f).
Qed.



Lemma tagger_stdout mp3_path metadata url w :
  stdout (add_metadata_to_mp3 mp3_path metadata url w).2
  = (stdout w ++
     [ match (add_metadata_body mp3_path metadata url w).1 with
       | Return _ => tag_success
       | Raise e => tag_error e
       end ])%list.
Proof.
  rewrite add_metadata_to_mp3_run. cbn [snd].
  destruct (add_metadata_body mp3_path metadata url w) as [[[]|e] w1] eqn:Hrun.
  - rewrite add_metadata_body_run in Hrun.
    destruct (files w !! mp3_path) as [f|]; [|done].
    destruct (mpeg f); [|done].
    destruct (metadata !! "title"); [|done].
    destruct (metadata !! "author"); [|done].
    destruct (metadata !! "description"); [|done].
    destruct (writable f); [|done].
    by injection Hrun as <-.
  - by apply add_metadata_body_raise in Hrun as ->.
Qed.

(** X6. The printed line is the only sign of what the Tagger did.  Every
    call prints exactly one line, and that line is the success line
    exactly when the [try] block completed, that is, when the tags were
    saved. *)
Theorem tagger_prints_one_line mp3_path metadata url w :
  ∃ line,
    stdout (add_metadata_to_mp3 mp3_path metadata url w).2
    = (stdout w ++ [line])%list
    ∧ (line = tag_success ↔
       ∃ w1, add_metadata_body mp3_path metadata url w = (Return tt, w1)).
Proof.
  eexists. split; [apply tagger_stdout|].
  destruct (add_metadata_body mp3_path metadata url w) as [[[]|e] w1];
    cbn [fst].
  - split; [eauto|done].
  - split; [discriminate|]. by intros [? ?].
Qed.

(** ** The Fetcher *)

Lemma string_app_assoc (x y z : string) : (x +:+ y) +:+ z = x +:+ y +:+ z.
Proof.
  induction x as [|c x IH]; [done|].
  change (String c ((x +:+ y) +:+ z) = String c (x +:+ y +:+ z)).
  by rewrite IH.
Qed.

Lemma startswith_sep_template (name : string) :
  startswith_sep (name +:+ ".%(ext)s") = startswith_sep name.
Proof. by destruct name. Qed.

(** X7. The template handed to the extractor and the path checked after
    the download are the same path but for the extension: the template is
    a stem followed by the placeholder [%(ext)s], and the expected MP3 is
    that stem followed by [mp3]. *)
Theorem outtmpl_and_audio_path_share_stem output_path random_filename :
  ∃ stem,
    outtmpl (ydl_opts output_path random_filename) = stem +:+ "%(ext)s"
    ∧ os_path_join output_path (random_filename +:+ ".mp3") = stem +:+ "mp3".
Proof.
  unfold ydl_opts, os_path_join. cbn [outtmpl].
  rewrite startswith_sep_template, startswith_sep_mp3.
  destruct (startswith_sep random_filename).
  - exists (random_filename +:+ "."). by rewrite !string_app_assoc.
  - destruct (bool_decide (output_path = "") || endswith_sep output_path).
    + exists (output_path +:+ random_filename +:+ ".").
      by rewrite !string_app_assoc.
    + exists (output_path +:+ "/" +:+ random_filename +:+ ".").
      by rewrite !string_app_assoc.
Qed.


Section FetcherMore.

Context `{Platform}.


(** X10. What an invocation prints after the extraction step.  A run that
    returns [None] prints one line, the error line.  A run that returns the
    mapping prints three: the line of the Tagger, which is its success
    line or its error line, then the two success lines of the Fetcher with
    the returned title and path, so these two are printed also when the
    Tagger failed. *)
Theorem fetcher_prints url output_path w :
  let w1 := (extraction url output_path w).2 in
  match download_youtube_audio url output_path w with
  | (Return (Some r), w') =>
      ∃ line title,
        r !! "title" = Some title
        ∧ stdout w'
          = (stdout w1 ++
             [ line;
               "Downloaded and extracted audio successfully: " +:+ title;
               "File saved as: " +:+ expected_path output_path w ])%list
        ∧ (line = tag_success ∨ ∃ e, line = tag_error e)
  | (Return None, w') =>
      ∃ e, stdout w' = (stdout w1 ++ [fetch_error e])%list
  | (Raise _, _) => False
  end.
Proof.
  cbv zeta. rewrite download_youtube_audio_run, try_block_run.
  destruct (extraction url output_path w) as [[info|e] w1]; [|by eexists].
  destruct (files w1 !! expected_path output_path w) as [f|]; [|by eexists].
  destruct (info !! "title") as [title|]; [|by eexists].
  destruct (info !! "uploader") as [uploader|]; [|by eexists].
  pose proof (tagger_stdout (expected_path output_path w)
                (metadata_of info title uploader) url w1) as Hout.
  eexists _, title. split; [by unfold result_of; simplify_map_eq|].
  split.
  - unfold printed at 1 2. simpl. rewrite Hout.
    by rewrite <- !app_assoc.
  - destruct (add_metadata_body _ _ url w1).1; eauto.
Qed.

End FetcherMore.

(** ** The further properties on scripted runs *)

(** X1 on an MP3 that may not be written: [save] fails after all five
    frames were added in memory, and the file keeps no tag. *)
Lemma tagger_all_or_nothing_witness :
  add_metadata_to_mp3 Script.mp3_path Script.metadata Script.url
    Script.one_locked_mp3
  = (Return tt,
     printed (tag_error
                (MutagenError
                   ("[Errno 13] Permission denied: '" +:+ Script.mp3_path +:+ "'")))
       Script.one_locked_mp3).
Proof.
  apply (tagger_all_or_nothing Script.mp3_path Script.metadata Script.url
           Script.one_locked_mp3
           (MutagenError
              ("[Errno 13] Permission denied: '" +:+ Script.mp3_path +:+ "'"))
           Script.one_locked_mp3).
  vm_compute. reflexivity.
Defined.

(** X2 on a record with 'title' and 'author' but no 'description'. *)
Lemma tagger_needs_every_key_witness :
  ∃ e,
    add_metadata_to_mp3 Script.mp3_path Script.metadata_without_description
      Script.url Script.one_mp3
    = (Return tt, printed (tag_error e) Script.one_mp3)
    ∧ ∀ f, files Script.one_mp3 !! Script.mp3_path = Some f → mpeg f = true →
           ∃ k, e = KeyError k ∧ k ∈ ["title"; "author"; "description"]
                ∧ Script.metadata_without_description !! k = None.
Proof.
  apply (tagger_needs_every_key Script.mp3_path
           Script.metadata_without_description Script.url Script.one_mp3).
  right. right. vm_compute. reflexivity.
Defined.

(** X3 with two different records and URLs. *)
Lemma tagger_last_call_wins_witness :
  files (add_metadata_to_mp3 Script.mp3_path Script.other_metadata
           Script.other_url
           (add_metadata_to_mp3 Script.mp3_path Script.metadata Script.url
              Script.one_mp3).2).2
  = files (add_metadata_to_mp3 Script.mp3_path Script.other_metadata
             Script.other_url Script.one_mp3).2.
Proof.
  apply (tagger_last_call_wins Script.mp3_path Script.metadata Script.url
           Script.other_metadata Script.other_url Script.one_mp3);
    vm_compute; eauto.
Defined.



(** Two identifiers in the default directory. *)
Lemma mp3_path_distinct_witness :
  os_path_join "." ("1b4e28ba-2fa1-41d2-883f-0016d3cca427" +:+ ".mp3")
  ≠ os_path_join "." ("6fa459ea-ee8a-4ca4-894e-db77e160355e" +:+ ".mp3").
Proof.
  apply (mp3_path_distinct "." "1b4e28ba-2fa1-41d2-883f-0016d3cca427"
           "6fa459ea-ee8a-4ca4-894e-db77e160355e"); [done|done|discriminate].
Defined.
